(** * The dashboard view of [app/app.py]

    The application registers one view, [dashboard], under the URL rule
    [/dashboard].  The view reads the query parameter [widget] with
    [request.args.get] (falling back on a literal default) and hands it to
    [render_template] as the template variable [widget_code].

    The development embeds the view together with the parts of Werkzeug,
    MarkupSafe, Jinja and Flask that its three lines go through:
    - [MultiDict]: the multi-valued dictionary behind [request.args];
    - [MarkupSafe]: the HTML escaping applied by an autoescaping template;
    - [Jinja]: templates as text and output nodes, rendered in a context;
    - [Flask]: requests, responses, the template folder, the monad of views
      (state passing with exceptions), the dispatch of a request and the
      handling of what a view raises;
    - [App]: the application object of [app.py] and its view.

    Two parts of Flask stay outside the model, and the statements that
    would feel them are restricted accordingly: the names Flask itself
    puts in a template context ([request], [session], [g], [config]), so
    that statements comparing requests are about templates that print
    [widget_code] only; and the rule [/static/<path:filename>] that
    [Flask(__name__)] adds to the URL map, so that statements about paths
    are about [/dashboard]. *)

From Stdlib Require Import String Ascii List Bool Arith Lia.
From stdpp Require Import base option list strings gmap.

(** ** Substrings *)

(** [occurrences s body] counts the positions of [body] at which [s] starts
    (overlapping occurrences are counted separately). *)
Fixpoint occurrences (s body : string) : nat :=
  (if String.prefix s body then 1 else 0) +
  match body with
  | EmptyString => 0
  | String _ rest => occurrences s rest
  end.

(** [s in body] of Python. *)
Definition contains (s body : string) : bool :=
  negb (Nat.eqb (occurrences s body) 0).

(** [occurs_at i s body]: [s] starts at index [i] of [body]. *)
Fixpoint occurs_at (i : nat) (s body : string) : bool :=
  match i, body with
  | 0, _ => String.prefix s body
  | S j, String _ rest => occurs_at j s rest
  | S _, EmptyString => false
  end.

(** [str.endswith] *)
Definition endswith (s suffix : string) : bool :=
  let n := String.length s in
  let m := String.length suffix in
  Nat.leb m n && String.eqb (String.substring (n - m) m s) suffix.

(** ** werkzeug.datastructures.MultiDict *)

Module MultiDict.

(** A [MultiDict] is a [dict] from each key to the list of its values, in
    the order in which they were added. *)
Abbreviation t := (gmap string (list string)).

(** [tmp.setdefault(key, []).append(value)] *)
Definition add (d : t) (key value : string) : t :=
  <[key := default [] (d !! key) ++ [value]]> d.

(** [MultiDict(pairs)]: built from the decoded [key=value] pairs of the
    query string, left to right. *)
Definition of_pairs (pairs : list (string * string)) : t :=
  foldl (fun d kv => add d kv.1 kv.2) ∅ pairs.

(** [d[key]]: the first value of [key]; [None] stands for the
    [BadRequestKeyError] raised when there is none. *)
Definition getitem (d : t) (key : string) : option string :=
  match d !! key with
  | Some (value :: _) => Some value
  | Some [] | None => None
  end.

(** [d.get(key, default)]: [d[key]], with the [KeyError] caught and
    replaced by [default]. *)
Definition get (d : t) (key dflt : string) : string :=
  match getitem d key with
  | Some rv => rv
  | None => dflt
  end.

(** [d.getlist(key)] *)
Definition getlist (d : t) (key : string) : list string :=
  default [] (d !! key).

End MultiDict.

(** ** markupsafe.escape *)

Module MarkupSafe.

Definition quot : ascii := "034"%char.
Definition apos : ascii := "039"%char.

(** The replacement of one character: [&], [>], [<], the apostrophe and
    the quotation mark become character references. *)
Definition escape_char (c : ascii) : string :=
  if Ascii.eqb c "&" then "&amp;"
  else if Ascii.eqb c ">" then "&gt;"
  else if Ascii.eqb c "<" then "&lt;"
  else if Ascii.eqb c apos then "&#39;"
  else if Ascii.eqb c quot then "&#34;"
  else String c EmptyString.

Fixpoint escape (s : string) : string :=
  match s with
  | EmptyString => EmptyString
  | String c rest => escape_char c +:+ escape rest
  end.

End MarkupSafe.

(** ** Jinja templates *)

Module Jinja.

(** The filters of an output expression that decide about escaping. *)
Inductive filter := Safe | Escape.

(** A template is its sequence of nodes: literal template data, and
    output expressions [{{ var|filter|... }}] over a context variable.
    Templates that reach for anything else than the variables passed by
    the view are outside this fragment. *)
Inductive node :=
| Data (text : string)
| Output (var : string) (filters : list filter).

Definition template := list node.

(** The variables a template prints. *)
Definition node_variables (n : node) : list string :=
  match n with
  | Data _ => []
  | Output var _ => [var]
  end.

Definition variables (tpl : template) : list string :=
  flat_map node_variables tpl.

(** The context: the keyword arguments of [render_template]. *)
Abbreviation context := (gmap string string).

(** A value under evaluation: its text and whether it is [Markup]
    (already safe, never escaped again). *)
Definition value : Type := string * bool.

Definition apply_filter (v : value) (f : filter) : value :=
  match f with
  | Safe => (v.1, true)
  | Escape => if v.2 then v else (MarkupSafe.escape v.1, true)
  end.

(** What an output expression writes.  An undefined variable prints as
    the empty string; a value that is not [Markup] after its filters is
    escaped when the template autoescapes. *)
Definition eval_output (autoescape : bool) (ctx : context)
    (var : string) (filters : list filter) : string :=
  let v := foldl apply_filter (default "" (ctx !! var), false) filters in
  if autoescape && negb v.2 then MarkupSafe.escape v.1 else v.1.

Definition render_node (autoescape : bool) (ctx : context) (n : node) : string :=
  match n with
  | Data text => text
  | Output var filters => eval_output autoescape ctx var filters
  end.

Fixpoint render (autoescape : bool) (ctx : context) (tpl : template) : string :=
  match tpl with
  | [] => ""
  | n :: rest => render_node autoescape ctx n +:+ render autoescape ctx rest
  end.

End Jinja.

(** ** Flask *)

Module Flask.

Inductive http_method :=
  GET | HEAD | POST | PUT | DELETE | OPTIONS | PATCH | CONNECT | TRACE.

Definition http_method_eqb (a b : http_method) : bool :=
  match a, b with
  | GET, GET | HEAD, HEAD | POST, POST | PUT, PUT
  | DELETE, DELETE | OPTIONS, OPTIONS | PATCH, PATCH
  | CONNECT, CONNECT | TRACE, TRACE => true
  | _, _ => false
  end.

(** [request.method] as text. *)
Definition method_name (m : http_method) : string :=
  match m with
  | GET => "GET" | HEAD => "HEAD" | POST => "POST" | PUT => "PUT"
  | DELETE => "DELETE" | OPTIONS => "OPTIONS" | PATCH => "PATCH"
  | CONNECT => "CONNECT" | TRACE => "TRACE"
  end.

(** The request bound to the [request] proxy while a view runs.  [query]
    is the decoded query string: its [key=value] pairs in the order of
    the URL, blank values kept. *)
Record request := mkRequest {
  method : http_method;
  path : string;
  query : list (string * string);
  headers : list (string * string)
}.

(** [request.args] *)
Definition args (req : request) : MultiDict.t :=
  MultiDict.of_pairs (query req).

(** The values the query string gives to [key], in the order of the URL. *)
Fixpoint query_values (key : string) (pairs : list (string * string)) : list string :=
  match pairs with
  | [] => []
  | (k, v) :: rest =>
      if String.eqb k key then v :: query_values key rest
      else query_values key rest
  end.

Record response := mkResponse {
  status : nat;
  mimetype : string;
  body : string
}.

(** The [Content-Type] header of a response. *)
Definition content_type (r : response) : string :=
  mimetype r +:+ "; charset=utf-8".

(** The state a view runs in: the templates of the application's template
    folder, and the records written to the application's logger. *)
Record world := mkWorld {
  templates : gmap string Jinja.template;
  log : list string
}.

Inductive exn :=
| TemplateNotFound (name : string)
| NotFound
| MethodNotAllowed.

(** [NotFound] and [MethodNotAllowed] are HTTP exceptions: they are their
    own answer (404, 405).  Any other exception is answered with 500. *)
Definition is_http_exception (e : exn) : bool :=
  match e with
  | NotFound | MethodNotAllowed => true
  | TemplateNotFound _ => false
  end.

Definition error_status (e : exn) : nat :=
  match e with
  | NotFound => 404
  | MethodNotAllowed => 405
  | TemplateNotFound _ => 500
  end.

(** Views: state passing, with an exception or a result. *)
Definition M (A : Type) : Type := world -> (exn + A) * world.

Definition ret {A} (a : A) : M A := fun w => (inr a, w).

Definition raise {A} (e : exn) : M A := fun w => (inl e, w).

Definition bind {A B} (m : M A) (k : A -> M B) : M B :=
  fun w =>
    match m w with
    | (inr a, w') => k a w'
    | (inl e, w') => (inl e, w')
    end.

Notation "'let*' x ':=' m 'in' k" := (bind m (fun x => k))
  (at level 10, x name, m at level 100, k at level 200).

(** [app.logger.info(msg)]: the writing step of the monad.  The view of
    [app.py] does not take it. *)
Definition log_record (msg : string) : M unit :=
  fun w => (inr tt, {| templates := templates w; log := log w ++ [msg] |}).

(** [app.jinja_env.get_template(name)]: reads the template folder. *)
Definition get_template (name : string) : M Jinja.template :=
  fun w =>
    match templates w !! name with
    | Some tpl => (inr tpl, w)
    | None => (inl (TemplateNotFound name), w)
    end.

(** [Flask.select_jinja_autoescape] *)
Definition select_jinja_autoescape (filename : string) : bool :=
  existsb (endswith filename) [".html"; ".htm"; ".xml"; ".xhtml"; ".svg"].

(** [render_template(name, **context)] *)
Definition render_template (name : string) (ctx : Jinja.context) : M string :=
  let* tpl := get_template name in
  ret (Jinja.render (select_jinja_autoescape name) ctx tpl).

(** [make_response] on the string a view returns. *)
Definition make_response (rv : string) : response :=
  {| status := 200; mimetype := "text/html"; body := rv |}.

(** [make_default_options_response] (the [Allow] header is not part of
    [response]). *)
Definition make_default_options_response : response :=
  {| status := 200; mimetype := "text/html"; body := "" |}.

(** A URL rule with its methods and its view function. *)
Record rule := mkRule {
  rule_path : string;
  rule_methods : list http_method;
  view_func : request -> M string
}.

(** [@app.route(path)]: the view answers [GET]; [HEAD] and [OPTIONS] are
    added to the methods of the rule. *)
Definition route (p : string) (view : request -> M string) : rule :=
  {| rule_path := p; rule_methods := [GET; HEAD; OPTIONS]; view_func := view |}.

(** Matching of the request path against the URL map. *)
Definition match_request (url_map : list rule) (req : request) : option rule :=
  find (fun r => String.eqb (rule_path r) (path req)) url_map.

(** [full_dispatch_request]: routing, then the view, then [make_response].
    Exceptions are returned as such: [inl e] is the request answered with
    the error page of [e]. *)
Definition full_dispatch_request (url_map : list rule) (req : request) : M response :=
  match match_request url_map req with
  | None => raise NotFound
  | Some r =>
      if existsb (http_method_eqb (method req)) (rule_methods r) then
        match method req with
        | OPTIONS => ret make_default_options_response
        | _ => let* rv := view_func r req in ret (make_response rv)
        end
      else raise MethodNotAllowed
  end.

(** [log_exception]: [app.logger.error] with the path and the method of
    the request. *)
Definition log_exception (req : request) : M unit :=
  log_record ("Exception on " +:+ path req +:+ " [" +:+ method_name (method req) +:+ "]").

(** [handle_exception]: an exception that is not an HTTP exception is
    logged before it is answered.  (Where exceptions propagate instead, as
    under the debugger of [app.run(debug=True)], it is the server that
    reports them.) *)
Definition handle_exception {A} (req : request) (e : exn) : M A :=
  if is_http_exception e then raise e
  else fun w => (inl e, snd (log_exception req w)).

(** [wsgi_app]: [full_dispatch_request], with what it raises handed to
    [handle_exception]. *)
Definition wsgi_app (url_map : list rule) (req : request) : M response :=
  fun w =>
    match full_dispatch_request url_map req w with
    | (inr resp, w') => (inr resp, w')
    | (inl e, w') => handle_exception req e w'
    end.

End Flask.

(** ** app.py *)

Module App.

(** The default of the [widget] parameter. *)
Definition default_widget : string := "<div>Welcome to your dashboard!</div>".

Definition dashboard (request : Flask.request) : Flask.M string :=
  let widget_code :=
    MultiDict.get (Flask.args request) "widget" default_widget in
  Flask.render_template "dashboard.html" {[ "widget_code" := widget_code ]}.

(** [app = Flask(__name__)] with [@app.route('/dashboard')]: the URL map
    as far as [app.py] fills it.  (The rule for static files that
    [Flask(__name__)] adds on its own is not part of it.) *)
Definition app : list Flask.rule := [Flask.route "/dashboard" dashboard].

(** The [widget] parameter as the URL carries it: the value of its first
    occurrence, or [None] when the query string has no [widget=]. *)
Definition widget_param (req : Flask.request) : option string :=
  head (Flask.query_values "widget" (Flask.query req)).

(** One request served by the application. *)
Definition handle (req : Flask.request) : Flask.M Flask.response :=
  Flask.wsgi_app app req.

(** Requests served one after the other, each in the state left by the
    one before. *)
Fixpoint serve (reqs : list Flask.request) (w : Flask.world)
    : list (Flask.exn + Flask.response) * Flask.world :=
  match reqs with
  | [] => ([], w)
  | req :: rest =>
      let (r, w') := handle req w in
      let (rs, w'') := serve rest w' in
      (r :: rs, w'')
  end.

(** Modelled from the spec: [templates/dashboard.html] is not among the
    sources.  The spec describes it as an HTML document into which the
    value is substituted verbatim (unescaped) at a single placeholder
    position: the text [before], the output of [widget_code] marked safe,
    the text [after]. *)
Definition dashboard_html (before after : string) : Jinja.template :=
  [Jinja.Data before; Jinja.Output "widget_code" [Jinja.Safe]; Jinja.Data after].

(** The same document with the placeholder left to autoescaping
    ([{{ widget_code }}]), for comparison. *)
Definition dashboard_html_escaped (before after : string) : Jinja.template :=
  [Jinja.Data before; Jinja.Output "widget_code" []; Jinja.Data after].

(** Templates that print no variable but the one the view passes.  What
    they render is a matter of [widget_code] alone, the names that Flask
    adds to the context (the request among them) not being printed. *)
Definition prints_widget_code_only (tpl : Jinja.template) : bool :=
  forallb (String.eqb "widget_code") (Jinja.variables tpl).

(** A template folder that holds [dashboard.html] only. *)
Definition world_with (tpl : Jinja.template) : Flask.world :=
  {| Flask.templates := {[ "dashboard.html" := tpl ]}; Flask.log := [] |}.

End App.

(** ** Read-only computations *)

(** The monad threads the state through every step: a computation is
    read-only when it hands back the state it was given. *)
Definition read_only {A} (m : Flask.M A) : Prop :=
  forall w, snd (m w) = w.

Create HintDb read_only.

(** ** Sample inputs *)

Module Samples.

(** A template folder whose [dashboard.html] is a bare document around
    the placeholder. *)
Definition site : Flask.world :=
  App.world_with (App.dashboard_html "<html><body>" "</body></html>").

(** [GET /dashboard?...] *)
Definition get_dashboard (q : list (string * string)) : Flask.request :=
  {| Flask.method := Flask.GET; Flask.path := "/dashboard";
     Flask.query := q; Flask.headers := [("Host", "localhost:5000")] |}.

Definition payload : string := "<script>alert(1)</script>".

End Samples.

(** * Properties *)

(** ** Substrings *)

Section Substrings.

Lemma append_nil_l (t : string) : "" +:+ t = t.
Proof. reflexivity. Qed.

Lemma append_cons (c : ascii) (s t : string) :
  String c s +:+ t = String c (s +:+ t).
Proof. reflexivity. Qed.

Lemma append_empty_r (s : string) : s +:+ "" = s.
Proof.
  induction s as [|c s IH]; [reflexivity|].
  now rewrite append_cons, IH.
Qed.

Lemma length_append (s t : string) :
  String.length (s +:+ t) = String.length s + String.length t.
Proof.
  induction s as [|c s IH]; [reflexivity|].
  rewrite append_cons. simpl. now rewrite IH.
Qed.

Lemma prefix_append (s t : string) : String.prefix s (s +:+ t) = true.
Proof.
  induction s as [|c s IH].
  - now destruct t.
  - rewrite append_cons. simpl.
    destruct (ascii_dec c c) as [_|Hc]; [exact IH | contradiction].
Qed.

Lemma occurs_at_append (before s after : string) :
  occurs_at (String.length before) s (before +:+ s +:+ after) = true.
Proof.
  induction before as [|c before IH].
  - rewrite append_nil_l. simpl. apply prefix_append.
  - rewrite append_cons. simpl. exact IH.
Qed.

Lemma occurrences_append_le (before s body : string) :
  occurrences s body <= occurrences s (before +:+ body).
Proof.
  induction before as [|c before IH].
  - rewrite append_nil_l. lia.
  - rewrite append_cons. simpl. lia.
Qed.

Lemma occurrences_prefix (s body : string) :
  String.prefix s body = true -> 1 <= occurrences s body.
Proof. intros Hp. destruct body; cbn [occurrences]; rewrite Hp; lia. Qed.

Lemma occurrences_spliced (before s after : string) :
  1 <= occurrences s (before +:+ s +:+ after).
Proof.
  etransitivity; [|apply occurrences_append_le].
  apply occurrences_prefix, prefix_append.
Qed.

Lemma contains_spliced (before s after : string) :
  contains s (before +:+ s +:+ after) = true.
Proof.
  unfold contains. pose proof (occurrences_spliced before s after) as H.
  destruct (occurrences s (before +:+ s +:+ after)); [lia | reflexivity].
Qed.

(** The empty string starts at every position, the end included. *)
Lemma occurrences_empty (body : string) :
  occurrences "" body = S (String.length body).
Proof.
  induction body as [|c body IH]; [reflexivity|].
  simpl occurrences. rewrite IH. simpl. reflexivity.
Qed.

End Substrings.

(** ** The multi-valued dictionary of the query string *)

Section MultiDictFacts.

Implicit Types (d : gmap string (list string)) (pairs : list (string * string)).

Lemma lookup_add d key value k :
  MultiDict.add d key value !! k =
  if decide (key = k) then Some (default [] (d !! key) ++ [value]) else d !! k.
Proof. unfold MultiDict.add. apply lookup_insert. Qed.

(** Adding the pairs of a query to a dictionary appends, under each key,
    the values the query gives it. *)
Lemma lookup_foldl_add pairs : forall d k,
  foldl (fun d kv => MultiDict.add d kv.1 kv.2) d pairs !! k =
  match Flask.query_values k pairs with
  | [] => d !! k
  | vs => Some (default [] (d !! k) ++ vs)
  end.
Proof.
  induction pairs as [|[key value] pairs IH]; intros d k; [reflexivity|].
  cbn [foldl Flask.query_values fst snd]. rewrite IH, lookup_add.
  destruct (String.eqb_spec key k) as [->|Hne].
  - rewrite decide_True by reflexivity. cbn [default from_option id].
    destruct (Flask.query_values k pairs); [reflexivity|].
    now rewrite <- app_assoc.
  - now rewrite decide_False by assumption.
Qed.

Lemma lookup_of_pairs pairs k :
  MultiDict.of_pairs pairs !! k =
  match Flask.query_values k pairs with
  | [] => None
  | vs => Some vs
  end.
Proof.
  unfold MultiDict.of_pairs. rewrite lookup_foldl_add, lookup_empty.
  now destruct (Flask.query_values k pairs).
Qed.

(** [d[key]] is the first value the query gives to [key]. *)
Lemma getitem_of_pairs pairs k :
  MultiDict.getitem (MultiDict.of_pairs pairs) k = head (Flask.query_values k pairs).
Proof.
  unfold MultiDict.getitem. rewrite lookup_of_pairs.
  now destruct (Flask.query_values k pairs).
Qed.

Lemma getlist_of_pairs pairs k :
  MultiDict.getlist (MultiDict.of_pairs pairs) k = Flask.query_values k pairs.
Proof.
  unfold MultiDict.getlist. rewrite lookup_of_pairs.
  now destruct (Flask.query_values k pairs).
Qed.

Lemma get_of_pairs pairs k dflt :
  MultiDict.get (MultiDict.of_pairs pairs) k dflt =
  default dflt (head (Flask.query_values k pairs)).
Proof.
  unfold MultiDict.get. rewrite getitem_of_pairs.
  now destruct (head (Flask.query_values k pairs)).
Qed.

Lemma query_values_app k pairs1 pairs2 :
  Flask.query_values k (pairs1 ++ pairs2) =
  Flask.query_values k pairs1 ++ Flask.query_values k pairs2.
Proof.
  induction pairs1 as [|[key value] pairs1 IH]; [reflexivity|].
  cbn [app Flask.query_values]. rewrite IH.
  now destruct (String.eqb key k).
Qed.

(** The value read by the view, in terms of the URL. *)
Lemma get_widget (req : Flask.request) :
  MultiDict.get (Flask.args req) "widget" App.default_widget =
  default App.default_widget (App.widget_param req).
Proof. apply get_of_pairs. Qed.

End MultiDictFacts.

(** ** Rendering *)

Section Rendering.

Lemma autoescape_dashboard : Flask.select_jinja_autoescape "dashboard.html" = true.
Proof. reflexivity. Qed.

(** A value marked safe is written as it is, whatever the autoescaping. *)
Lemma eval_output_safe autoescape (ctx : gmap string string) var v :
  ctx !! var = Some v ->
  Jinja.eval_output autoescape ctx var [Jinja.Safe] = v.
Proof.
  intros Hv. unfold Jinja.eval_output. rewrite Hv. cbn.
  now rewrite andb_false_r.
Qed.

(** A value without filters is escaped by an autoescaping template. *)
Lemma eval_output_autoescaped (ctx : gmap string string) var v :
  ctx !! var = Some v ->
  Jinja.eval_output true ctx var [] = MarkupSafe.escape v.
Proof. intros Hv. unfold Jinja.eval_output. now rewrite Hv. Qed.

Lemma render_dashboard_html autoescape before after v :
  Jinja.render autoescape {[ "widget_code" := v ]} (App.dashboard_html before after) =
  before +:+ v +:+ after.
Proof.
  unfold App.dashboard_html. cbn [Jinja.render Jinja.render_node].
  rewrite (eval_output_safe _ _ _ v) by apply lookup_singleton_eq.
  now rewrite append_empty_r.
Qed.

Lemma render_dashboard_html_escaped before after v :
  Jinja.render true {[ "widget_code" := v ]} (App.dashboard_html_escaped before after) =
  before +:+ MarkupSafe.escape v +:+ after.
Proof.
  unfold App.dashboard_html_escaped. cbn [Jinja.render Jinja.render_node].
  rewrite (eval_output_autoescaped _ _ v) by apply lookup_singleton_eq.
  now rewrite append_empty_r.
Qed.

End Rendering.

(** ** Dispatch *)

Section ReadOnly.

Context {A B : Type}.

Lemma read_only_ret (a : A) : read_only (Flask.ret a).
Proof. now intros w. Qed.

Lemma read_only_raise (e : Flask.exn) : read_only (@Flask.raise A e).
Proof. now intros w. Qed.

Lemma read_only_bind (m : Flask.M A) (k : A -> Flask.M B) :
  read_only m -> (forall a, read_only (k a)) -> read_only (Flask.bind m k).
Proof.
  intros Hm Hk w. unfold Flask.bind.
  specialize (Hm w). destruct (m w) as [[e|a] w']; simpl in Hm; subst w'.
  - reflexivity.
  - apply Hk.
Qed.

End ReadOnly.

Lemma read_only_get_template name : read_only (Flask.get_template name).
Proof.
  intros w. unfold Flask.get_template.
  now destruct (Flask.templates w !! name).
Qed.

(** A step that logs is not read-only. *)
Example log_record_writes : ~ read_only (Flask.log_record "GET /dashboard").
Proof.
  intros Hro. specialize (Hro Samples.site).
  apply (f_equal Flask.log) in Hro. discriminate Hro.
Qed.

#[local] Hint Resolve read_only_ret read_only_raise read_only_bind
  read_only_get_template : read_only.

Lemma read_only_render_template name ctx :
  read_only (Flask.render_template name ctx).
Proof. unfold Flask.render_template. auto with read_only. Qed.

Lemma read_only_dashboard req : read_only (App.dashboard req).
Proof. apply read_only_render_template. Qed.

#[local] Hint Resolve read_only_dashboard : read_only.

(** Whatever the URL map, dispatching is read-only when the views are. *)
Lemma read_only_full_dispatch_request url_map req :
  Forall (fun r => forall rq, read_only (Flask.view_func r rq)) url_map ->
  read_only (Flask.full_dispatch_request url_map req).
Proof.
  intros Hviews. unfold Flask.full_dispatch_request, Flask.match_request.
  destruct (find _ url_map) as [r|] eqn:Hfind; [|auto with read_only].
  apply find_some in Hfind as [Hin _].
  apply list_elem_of_In in Hin.
  rewrite Forall_forall in Hviews. specialize (Hviews r Hin).
  destruct (existsb _ _); [|auto with read_only].
  destruct (Flask.method req); auto with read_only.
Qed.

Lemma read_only_dispatch req :
  read_only (Flask.full_dispatch_request App.app req).
Proof.
  apply read_only_full_dispatch_request.
  repeat constructor. auto with read_only.
Qed.

(** The whole of the dispatch, by cases on the path, the method and the
    template folder. *)
Lemma dispatch_cases (req : Flask.request) (w : Flask.world) :
  Flask.full_dispatch_request App.app req w =
  if String.eqb "/dashboard" (Flask.path req) then
    match Flask.method req with
    | Flask.GET | Flask.HEAD =>
        (match Flask.templates w !! "dashboard.html" with
         | Some tpl =>
             inr (Flask.make_response
                    (Jinja.render true
                       {[ "widget_code" :=
                            default App.default_widget (App.widget_param req) ]}
                       tpl))
         | None => inl (Flask.TemplateNotFound "dashboard.html")
         end, w)
    | Flask.OPTIONS => (inr Flask.make_default_options_response, w)
    | _ => (inl Flask.MethodNotAllowed, w)
    end
  else (inl Flask.NotFound, w).
Proof.
  unfold Flask.full_dispatch_request, Flask.match_request, App.app.
  cbn [find Flask.route Flask.rule_path].
  destruct (String.eqb "/dashboard" (Flask.path req)); [|reflexivity].
  destruct (Flask.method req);
    cbn [Flask.route Flask.rule_methods Flask.view_func existsb
         Flask.http_method_eqb orb];
    try reflexivity;
    unfold Flask.bind, App.dashboard, Flask.render_template, Flask.bind,
      Flask.get_template;
    rewrite get_widget;
    now destruct (Flask.templates w !! "dashboard.html").
Qed.

(** The same for a request served: the one exception that is not an HTTP
    exception, the missing template, is logged on its way out. *)
Lemma handle_cases (req : Flask.request) (w : Flask.world) :
  App.handle req w =
  if String.eqb "/dashboard" (Flask.path req) then
    match Flask.method req with
    | Flask.GET | Flask.HEAD =>
        match Flask.templates w !! "dashboard.html" with
        | Some tpl =>
            (inr (Flask.make_response
                    (Jinja.render true
                       {[ "widget_code" :=
                            default App.default_widget (App.widget_param req) ]}
                       tpl)), w)
        | None =>
            (inl (Flask.TemplateNotFound "dashboard.html"),
             snd (Flask.log_exception req w))
        end
    | Flask.OPTIONS => (inr Flask.make_default_options_response, w)
    | _ => (inl Flask.MethodNotAllowed, w)
    end
  else (inl Flask.NotFound, w).
Proof.
  unfold App.handle, Flask.wsgi_app. rewrite dispatch_cases.
  destruct (String.eqb "/dashboard" (Flask.path req)); [|reflexivity].
  destruct (Flask.method req); try reflexivity;
    now destruct (Flask.templates w !! "dashboard.html").
Qed.

(** With [dashboard.html] in the template folder no request raises
    anything but an HTTP exception, and the state is handed back. *)
Lemma handle_state (req : Flask.request) (w : Flask.world) tpl :
  Flask.templates w !! "dashboard.html" = Some tpl ->
  snd (App.handle req w) = w.
Proof.
  intros Htpl. rewrite handle_cases, Htpl.
  destruct (String.eqb "/dashboard" (Flask.path req)); [|reflexivity].
  now destruct (Flask.method req).
Qed.

(** Serving a list of requests then answers each of them as if it came
    first. *)
Lemma serve_map reqs w tpl :
  Flask.templates w !! "dashboard.html" = Some tpl ->
  App.serve reqs w = (map (fun req => fst (App.handle req w)) reqs, w).
Proof.
  intros Htpl. induction reqs as [|req reqs IH]; [reflexivity|].
  cbn [App.serve map].
  pose proof (handle_state req w tpl Htpl) as Hw.
  destruct (App.handle req w) as [r w']; simpl in Hw; subst w'.
  now rewrite IH.
Qed.

Section Dispatch.

Variables (w : Flask.world) (req : Flask.request).
Hypothesis Hmethod : Flask.method req = Flask.GET.
Hypothesis Hpath : Flask.path req = "/dashboard".

(** With the template in the folder, the answer is the rendering of the
    template with [widget_code] bound to the parameter or its default. *)
Lemma handle_rendered tpl :
  Flask.templates w !! "dashboard.html" = Some tpl ->
  App.handle req w =
  (inr (Flask.make_response
          (Jinja.render true
             {[ "widget_code" := default App.default_widget (App.widget_param req) ]}
             tpl)), w).
Proof.
  intros Htpl. now rewrite handle_cases, Hpath, Hmethod, Htpl.
Qed.

(** Without it, the view raises [TemplateNotFound], which is logged. *)
Lemma handle_template_missing :
  Flask.templates w !! "dashboard.html" = None ->
  App.handle req w =
  (inl (Flask.TemplateNotFound "dashboard.html"),
   {| Flask.templates := Flask.templates w;
      Flask.log := Flask.log w ++ ["Exception on /dashboard [GET]"] |}).
Proof.
  intros Htpl. rewrite handle_cases, Hpath, Hmethod, Htpl.
  unfold Flask.log_exception, Flask.log_record.
  now rewrite Hpath, Hmethod.
Qed.

(** In both cases the result is a function of the template folder and of
    the [widget] parameter alone. *)
Lemma handle_result :
  fst (App.handle req w) =
  match Flask.templates w !! "dashboard.html" with
  | Some tpl =>
      inr (Flask.make_response
             (Jinja.render true
                {[ "widget_code" := default App.default_widget (App.widget_param req) ]}
                tpl))
  | None => inl (Flask.TemplateNotFound "dashboard.html")
  end.
Proof.
  destruct (Flask.templates w !! "dashboard.html") as [tpl|] eqn:Htpl.
  - now rewrite (handle_rendered tpl).
  - now rewrite handle_template_missing.
Qed.

End Dispatch.

(** ** The model on sample requests *)

Example getlist_keeps_order :
  MultiDict.getlist
    (MultiDict.of_pairs [("a", "1"); ("widget", "x"); ("a", "2"); ("widget", "")])
    "widget" = ["x"; ""].
Proof. vm_compute. reflexivity. Qed.

Example getitem_missing_key :
  MultiDict.getitem (MultiDict.of_pairs [("a", "1")]) "widget" = None.
Proof. vm_compute. reflexivity. Qed.

Example escape_markup :
  MarkupSafe.escape "<a href='x'>Q&A</a>" =
  "&lt;a href=&#39;x&#39;&gt;Q&amp;A&lt;/a&gt;".
Proof. reflexivity. Qed.

Example autoescape_by_extension :
  Flask.select_jinja_autoescape "dashboard.html" = true /\
  Flask.select_jinja_autoescape "dashboard.txt" = false.
Proof. split; reflexivity. Qed.

Example get_dashboard_renders :
  App.handle (Samples.get_dashboard [("widget", "<b>1</b>")]) Samples.site =
  (inr {| Flask.status := 200; Flask.mimetype := "text/html";
          Flask.body := "<html><body><b>1</b></body></html>" |}, Samples.site).
Proof. vm_compute. reflexivity. Qed.

Example post_dashboard_not_allowed :
  fst (App.handle
         {| Flask.method := Flask.POST; Flask.path := "/dashboard";
            Flask.query := []; Flask.headers := [] |} Samples.site)
  = inl Flask.MethodNotAllowed.
Proof. reflexivity. Qed.

Example get_elsewhere_not_found :
  fst (App.handle
         {| Flask.method := Flask.GET; Flask.path := "/dashboard/";
            Flask.query := []; Flask.headers := [] |} Samples.site)
  = inl Flask.NotFound.
Proof. reflexivity. Qed.

Example get_dashboard_without_template :
  fst (App.handle (Samples.get_dashboard [])
         {| Flask.templates := ∅; Flask.log := [] |})
  = inl (Flask.TemplateNotFound "dashboard.html").
Proof. reflexivity. Qed.

(** ** The view on a request that carries [widget] *)

Lemma widget_param_first (req : Flask.request) pre v rest :
  Flask.query req = pre ++ ("widget", v) :: rest ->
  Flask.query_values "widget" pre = [] ->
  App.widget_param req = Some v.
Proof.
  intros Hq Hpre. unfold App.widget_param.
  now rewrite Hq, query_values_app, Hpre.
Qed.

(** With an empty [widget] the empty string starts at every position of
    the body, whatever the text around the placeholder. *)
Lemma empty_widget_occurrences (w : Flask.world) (req : Flask.request)
    (before after : string) :
  Flask.templates w !! "dashboard.html" = Some (App.dashboard_html before after) ->
  Flask.method req = Flask.GET ->
  Flask.path req = "/dashboard" ->
  App.widget_param req = Some "" ->
  exists resp,
    fst (App.handle req w) = inr resp /\
    occurrences "" (Flask.body resp) =
      S (String.length before + String.length after).
Proof.
  intros Htpl Hm Hp Hs. eexists.
  rewrite (handle_rendered w req Hm Hp _ Htpl), Hs, render_dashboard_html.
  cbn [fst Flask.make_response Flask.body default from_option id].
  split; [reflexivity|]. cbn [Flask.make_response Flask.body].
  rewrite occurrences_empty, !length_append. reflexivity.
Qed.

(** C1, as amended.  A [GET /dashboard] whose [widget] parameter is [s]
    is answered with status 200 and a body that is the text of the
    template before the placeholder, then [s] as it came (unescaped), then
    the text after the placeholder: [s] is written once, at the position
    of the placeholder, where it occurs in the body.  (Nothing is said of
    the other positions of the body: [s] can occur there as well.) *)
Theorem dashboard_widget_spliced (w : Flask.world) (req : Flask.request)
    (before after s : string) :
  Flask.templates w !! "dashboard.html" = Some (App.dashboard_html before after) ->
  Flask.method req = Flask.GET ->
  Flask.path req = "/dashboard" ->
  App.widget_param req = Some s ->
  exists resp,
    fst (App.handle req w) = inr resp /\
    Flask.status resp = 200 /\
    Flask.body resp = before +:+ s +:+ after /\
    occurs_at (String.length before) s (Flask.body resp) = true /\
    1 <= occurrences s (Flask.body resp).
Proof.
  intros Htpl Hm Hp Hs. eexists.
  rewrite (handle_rendered w req Hm Hp _ Htpl), Hs, render_dashboard_html.
  cbn [fst Flask.make_response Flask.status Flask.body default from_option id].
  repeat split.
  - apply occurs_at_append.
  - apply occurrences_spliced.
Qed.

Lemma dashboard_widget_spliced_witness :
  exists resp,
    fst (App.handle (Samples.get_dashboard [("widget", "<b>hi</b>")]) Samples.site)
      = inr resp /\
    Flask.status resp = 200 /\
    Flask.body resp = "<html><body>" +:+ "<b>hi</b>" +:+ "</body></html>" /\
    occurs_at (String.length "<html><body>") "<b>hi</b>" (Flask.body resp) = true /\
    1 <= occurrences "<b>hi</b>" (Flask.body resp).
Proof.
  apply (dashboard_widget_spliced Samples.site
           (Samples.get_dashboard [("widget", "<b>hi</b>")])
           "<html><body>" "</body></html>" "<b>hi</b>"); reflexivity.
Defined.

(** C1, as stated, fails: the body need not contain [s] exactly once.  The
    empty string starts at every position of the body, and a fragment of
    the template's own markup occurs at the placeholder and elsewhere. *)
Lemma dashboard_widget_not_exactly_once :
  (exists resp,
     fst (App.handle (Samples.get_dashboard [("widget", "")]) Samples.site) = inr resp /\
     Flask.status resp = 200 /\
     Flask.body resp = "<html><body></body></html>" /\
     occurrences "" (Flask.body resp) = 27 /\
     occurrences "" (Flask.body resp) <> 1) /\
  (exists resp,
     fst (App.handle (Samples.get_dashboard [("widget", "<")]) Samples.site) = inr resp /\
     Flask.status resp = 200 /\
     Flask.body resp = "<html><body><</body></html>" /\
     occurrences "<" (Flask.body resp) = 5 /\
     occurrences "<" (Flask.body resp) <> 1).
Proof.
  split; eexists; (split; [vm_compute; reflexivity|]);
    cbn [Flask.status Flask.body]; repeat split; try reflexivity;
    vm_compute; discriminate.
Qed.

(** C2.  For [widget=<script>alert(1)</script>] the body contains that
    literal substring: the value stands between the two halves of the
    template as it came, not in its HTML-encoded form. *)
Theorem dashboard_script_unescaped (w : Flask.world) (req : Flask.request)
    (before after : string) :
  Flask.templates w !! "dashboard.html" = Some (App.dashboard_html before after) ->
  Flask.method req = Flask.GET ->
  Flask.path req = "/dashboard" ->
  App.widget_param req = Some "<script>alert(1)</script>" ->
  exists resp,
    fst (App.handle req w) = inr resp /\
    contains "<script>alert(1)</script>" (Flask.body resp) = true /\
    Flask.body resp = before +:+ "<script>alert(1)</script>" +:+ after /\
    Flask.body resp <>
      before +:+ MarkupSafe.escape "<script>alert(1)</script>" +:+ after.
Proof.
  intros Htpl Hm Hp Hs. eexists.
  rewrite (handle_rendered w req Hm Hp _ Htpl), Hs, render_dashboard_html.
  cbn [fst Flask.make_response Flask.body default from_option id].
  repeat split.
  - apply contains_spliced.
  - intros Heq. apply (inj (String.app before)) in Heq. discriminate Heq.
Qed.

Lemma dashboard_script_unescaped_witness :
  exists resp,
    fst (App.handle (Samples.get_dashboard [("widget", Samples.payload)]) Samples.site)
      = inr resp /\
    contains "<script>alert(1)</script>" (Flask.body resp) = true /\
    Flask.body resp = "<html><body>" +:+ "<script>alert(1)</script>" +:+ "</body></html>" /\
    Flask.body resp <>
      "<html><body>" +:+ MarkupSafe.escape "<script>alert(1)</script>" +:+ "</body></html>".
Proof.
  apply (dashboard_script_unescaped Samples.site
           (Samples.get_dashboard [("widget", Samples.payload)])
           "<html><body>" "</body></html>"); reflexivity.
Defined.

(** The same request against the autoescaping variant of the template
    gets the encoded text: the model tells the two templates apart. *)
Example dashboard_script_autoescaped :
  fst (App.handle (Samples.get_dashboard [("widget", Samples.payload)])
         (App.world_with (App.dashboard_html_escaped "<html><body>" "</body></html>")))
  = inr (Flask.make_response
           "<html><body>&lt;script&gt;alert(1)&lt;/script&gt;</body></html>").
Proof. vm_compute. reflexivity. Qed.

(** ** The view on a request without [widget], or with an empty one *)

(** C3.  A [GET /dashboard] without a [widget] parameter is answered with
    status 200 and a body that has the literal default
    [<div>Welcome to your dashboard!</div>], as it is, at the position of
    the placeholder. *)
Theorem dashboard_default_widget (w : Flask.world) (req : Flask.request)
    (before after : string) :
  Flask.templates w !! "dashboard.html" = Some (App.dashboard_html before after) ->
  Flask.method req = Flask.GET ->
  Flask.path req = "/dashboard" ->
  App.widget_param req = None ->
  exists resp,
    fst (App.handle req w) = inr resp /\
    Flask.status resp = 200 /\
    Flask.body resp = before +:+ "<div>Welcome to your dashboard!</div>" +:+ after /\
    occurs_at (String.length before) "<div>Welcome to your dashboard!</div>"
      (Flask.body resp) = true.
Proof.
  intros Htpl Hm Hp Hs. eexists.
  rewrite (handle_rendered w req Hm Hp _ Htpl), Hs, render_dashboard_html.
  cbn [fst Flask.make_response Flask.status Flask.body default from_option id].
  repeat split. apply occurs_at_append.
Qed.

Lemma dashboard_default_widget_witness :
  exists resp,
    fst (App.handle (Samples.get_dashboard [("theme", "dark")]) Samples.site) = inr resp /\
    Flask.status resp = 200 /\
    Flask.body resp =
      "<html><body>" +:+ "<div>Welcome to your dashboard!</div>" +:+ "</body></html>" /\
    occurs_at (String.length "<html><body>") "<div>Welcome to your dashboard!</div>"
      (Flask.body resp) = true.
Proof.
  apply (dashboard_default_widget Samples.site
           (Samples.get_dashboard [("theme", "dark")])
           "<html><body>" "</body></html>"); reflexivity.
Defined.

(** The length of a body with the default in it. *)
Lemma default_widget_body_longer before after :
  before +:+ App.default_widget +:+ after <> before +:+ "" +:+ after.
Proof.
  intros Heq. apply (f_equal String.length) in Heq.
  rewrite !length_append in Heq. simpl in Heq. lia.
Qed.

(** C4.  A [GET /dashboard] whose [widget] parameter is present and empty
    gets the empty string substituted, not the default: the view reads
    [""], the body is the rendering of the template with [widget_code]
    empty, and with the document of the spec it is the text around the
    placeholder with nothing in between, which differs from the body with
    the default.  The default is read only from a query without [widget]
    (or one that spells the default out). *)
Theorem dashboard_empty_widget (w : Flask.world) (req : Flask.request)
    (tpl : Jinja.template) :
  Flask.templates w !! "dashboard.html" = Some tpl ->
  Flask.method req = Flask.GET ->
  Flask.path req = "/dashboard" ->
  App.widget_param req = Some "" ->
  MultiDict.get (Flask.args req) "widget" App.default_widget = "" /\
  fst (App.handle req w) =
    inr (Flask.make_response (Jinja.render true {[ "widget_code" := "" ]} tpl)) /\
  (forall before after, tpl = App.dashboard_html before after ->
     exists resp,
       fst (App.handle req w) = inr resp /\
       Flask.body resp = before +:+ "" +:+ after /\
       Flask.body resp <> before +:+ App.default_widget +:+ after) /\
  (forall req' : Flask.request,
     MultiDict.get (Flask.args req') "widget" App.default_widget = App.default_widget ->
     App.widget_param req' = None \/ App.widget_param req' = Some App.default_widget).
Proof.
  intros Htpl Hm Hp Hs. repeat split.
  - now rewrite get_widget, Hs.
  - now rewrite (handle_rendered w req Hm Hp _ Htpl), Hs.
  - intros before after ->. eexists.
    rewrite (handle_rendered w req Hm Hp _ Htpl), Hs, render_dashboard_html.
    cbn [fst Flask.make_response Flask.body default from_option id].
    repeat split. intros Heq. now apply (default_widget_body_longer before after).
  - intros req'. rewrite get_widget.
    destruct (App.widget_param req') as [v|]; cbn; [|now left].
    intros ->. now right.
Qed.

Lemma dashboard_empty_widget_witness :
  let req := Samples.get_dashboard [("widget", "")] in
  let tpl := App.dashboard_html "<html><body>" "</body></html>" in
  MultiDict.get (Flask.args req) "widget" App.default_widget = "" /\
  fst (App.handle req Samples.site) =
    inr (Flask.make_response (Jinja.render true {[ "widget_code" := "" ]} tpl)) /\
  (forall before after, tpl = App.dashboard_html before after ->
     exists resp,
       fst (App.handle req Samples.site) = inr resp /\
       Flask.body resp = before +:+ "" +:+ after /\
       Flask.body resp <> before +:+ App.default_widget +:+ after) /\
  (forall req' : Flask.request,
     MultiDict.get (Flask.args req') "widget" App.default_widget = App.default_widget ->
     App.widget_param req' = None \/ App.widget_param req' = Some App.default_widget).
Proof.
  apply (dashboard_empty_widget Samples.site
           (Samples.get_dashboard [("widget", "")])
           (App.dashboard_html "<html><body>" "</body></html>")); reflexivity.
Defined.

(** ** Every request is answered, and the same way each time *)

(** C6.  Every [GET /dashboard], whatever its query, is answered with
    status 200 and the content type [text/html] (the template being in the
    template folder). *)
Theorem dashboard_status_and_type (w : Flask.world) (req : Flask.request)
    (tpl : Jinja.template) :
  Flask.templates w !! "dashboard.html" = Some tpl ->
  Flask.method req = Flask.GET ->
  Flask.path req = "/dashboard" ->
  exists resp,
    fst (App.handle req w) = inr resp /\
    Flask.status resp = 200 /\
    Flask.mimetype resp = "text/html" /\
    Flask.content_type resp = "text/html; charset=utf-8".
Proof.
  intros Htpl Hm Hp. eexists.
  rewrite (handle_rendered w req Hm Hp _ Htpl).
  repeat split.
Qed.

Lemma dashboard_status_and_type_witness :
  exists resp,
    fst (App.handle (Samples.get_dashboard [("widget", "<i>x</i>"); ("n", "1")])
           Samples.site) = inr resp /\
    Flask.status resp = 200 /\
    Flask.mimetype resp = "text/html" /\
    Flask.content_type resp = "text/html; charset=utf-8".
Proof.
  apply (dashboard_status_and_type Samples.site
           (Samples.get_dashboard [("widget", "<i>x</i>"); ("n", "1")])
           (App.dashboard_html "<html><body>" "</body></html>")); reflexivity.
Defined.

(** C7.  No value of [widget] is rejected: whether the parameter is absent
    or has any string as its value, the view raises nothing and the
    request is answered with the rendering of the template in which
    [widget_code] is the value, or the default when there is none. *)
Theorem dashboard_never_rejects (w : Flask.world) (req : Flask.request)
    (tpl : Jinja.template) :
  Flask.templates w !! "dashboard.html" = Some tpl ->
  Flask.method req = Flask.GET ->
  Flask.path req = "/dashboard" ->
  (forall e, fst (App.handle req w) <> inl e) /\
  exists resp,
    fst (App.handle req w) = inr resp /\
    Flask.status resp = 200 /\
    Flask.body resp =
      Jinja.render true
        {[ "widget_code" :=
             match App.widget_param req with
             | Some s => s
             | None => "<div>Welcome to your dashboard!</div>"
             end ]} tpl.
Proof.
  intros Htpl Hm Hp. rewrite (handle_rendered w req Hm Hp _ Htpl). split.
  - intros e He. discriminate He.
  - eexists. split; [reflexivity|]. split; [reflexivity|].
    cbn [Flask.make_response Flask.body].
    now destruct (App.widget_param req).
Qed.

Lemma dashboard_never_rejects_witness :
  let req := Samples.get_dashboard [("widget", "<<<&&&>>>")] in
  (forall e, fst (App.handle req Samples.site) <> inl e) /\
  exists resp,
    fst (App.handle req Samples.site) = inr resp /\
    Flask.status resp = 200 /\
    Flask.body resp =
      Jinja.render true
        {[ "widget_code" :=
             match App.widget_param req with
             | Some s => s
             | None => "<div>Welcome to your dashboard!</div>"
             end ]} (App.dashboard_html "<html><body>" "</body></html>").
Proof.
  apply (dashboard_never_rejects Samples.site
           (Samples.get_dashboard [("widget", "<<<&&&>>>")])
           (App.dashboard_html "<html><body>" "</body></html>")); reflexivity.
Defined.

(** The exception path does write: without [dashboard.html] in the
    template folder the request is answered with the error and a record
    is added to the log. *)
Example missing_template_is_logged :
  App.handle (Samples.get_dashboard [("widget", "x")])
    {| Flask.templates := ∅; Flask.log := [] |} =
  (inl (Flask.TemplateNotFound "dashboard.html"),
   {| Flask.templates := ∅; Flask.log := ["Exception on /dashboard [GET]"] |}).
Proof. reflexivity. Qed.

(** C8.  Handling a [GET /dashboard] (the template being in the template
    folder) has no effect but the response: the state after the request,
    template folder and log, is the state before it, and any request
    served afterwards is served as if it came first. *)
Theorem dashboard_no_side_effect (w : Flask.world) (req : Flask.request)
    (tpl : Jinja.template) :
  Flask.templates w !! "dashboard.html" = Some tpl ->
  Flask.method req = Flask.GET ->
  Flask.path req = "/dashboard" ->
  snd (App.handle req w) = w /\
  Flask.log (snd (App.handle req w)) = Flask.log w /\
  Flask.templates (snd (App.handle req w)) = Flask.templates w /\
  (forall later : Flask.request,
     App.handle later (snd (App.handle req w)) = App.handle later w).
Proof.
  intros Htpl Hm Hp.
  rewrite (handle_rendered w req Hm Hp _ Htpl). cbn [snd]. repeat split.
Qed.

Lemma dashboard_no_side_effect_witness :
  let req := Samples.get_dashboard [("widget", "<b>w</b>")] in
  let w :=
    {| Flask.templates := Flask.templates Samples.site;
       Flask.log := ["Exception on /dashboard [GET]"] |} in
  snd (App.handle req w) = w /\
  Flask.log (snd (App.handle req w)) = Flask.log w /\
  Flask.templates (snd (App.handle req w)) = Flask.templates w /\
  (forall later : Flask.request,
     App.handle later (snd (App.handle req w)) = App.handle later w).
Proof.
  apply (dashboard_no_side_effect
           {| Flask.templates := Flask.templates Samples.site;
              Flask.log := ["Exception on /dashboard [GET]"] |}
           (Samples.get_dashboard [("widget", "<b>w</b>")])
           (App.dashboard_html "<html><body>" "</body></html>")); reflexivity.
Defined.

(** The document of the spec prints [widget_code] and nothing else. *)
Lemma dashboard_html_prints_widget_code_only before after :
  App.prints_widget_code_only (App.dashboard_html before after) = true.
Proof. reflexivity. Qed.

(** C10.  Two [GET /dashboard] requests that agree on [widget] (the same
    value, or absent in both) are answered alike, however their other
    query parameters and their headers differ: with a template that
    prints [widget_code] only, both get a response, and the two responses
    have the same body. *)
Theorem dashboard_noninterference (w : Flask.world) (req1 req2 : Flask.request)
    (tpl : Jinja.template) :
  Flask.templates w !! "dashboard.html" = Some tpl ->
  App.prints_widget_code_only tpl = true ->
  Flask.method req1 = Flask.GET -> Flask.path req1 = "/dashboard" ->
  Flask.method req2 = Flask.GET -> Flask.path req2 = "/dashboard" ->
  App.widget_param req1 = App.widget_param req2 ->
  exists resp1 resp2,
    fst (App.handle req1 w) = inr resp1 /\
    fst (App.handle req2 w) = inr resp2 /\
    Flask.body resp1 = Flask.body resp2 /\
    resp1 = resp2.
Proof.
  intros Htpl _ Hm1 Hp1 Hm2 Hp2 Hwidget.
  rewrite (handle_rendered w req1 Hm1 Hp1 _ Htpl),
          (handle_rendered w req2 Hm2 Hp2 _ Htpl), Hwidget.
  do 2 eexists. repeat split.
Qed.

Lemma dashboard_noninterference_witness :
  let req1 := Samples.get_dashboard [("widget", "<p>a</p>"); ("debug", "1")] in
  let req2 :=
    {| Flask.method := Flask.GET; Flask.path := "/dashboard";
       Flask.query := [("lang", "fr"); ("widget", "<p>a</p>"); ("widget", "z")];
       Flask.headers := [("Cookie", "id=7"); ("Accept", "*/*")] |} in
  exists resp1 resp2,
    fst (App.handle req1 Samples.site) = inr resp1 /\
    fst (App.handle req2 Samples.site) = inr resp2 /\
    Flask.body resp1 = Flask.body resp2 /\
    resp1 = resp2.
Proof.
  apply (dashboard_noninterference Samples.site
           (Samples.get_dashboard [("widget", "<p>a</p>"); ("debug", "1")])
           {| Flask.method := Flask.GET; Flask.path := "/dashboard";
              Flask.query := [("lang", "fr"); ("widget", "<p>a</p>"); ("widget", "z")];
              Flask.headers := [("Cookie", "id=7"); ("Accept", "*/*")] |}
           (App.dashboard_html "<html><body>" "</body></html>"));
    reflexivity.
Defined.

(** C5.  The view is deterministic: a [GET /dashboard] served again, with
    the same [widget], after any requests served in between, gets the
    response it got the first time, hence a body that is the same byte for
    byte (the template being in the template folder).  No hidden state
    bears on the rendering: whatever the log holds when the request is
    served, the response is that one. *)
Theorem dashboard_deterministic (w : Flask.world) (req : Flask.request)
    (others : list Flask.request) (tpl : Jinja.template) :
  Flask.templates w !! "dashboard.html" = Some tpl ->
  Flask.method req = Flask.GET -> Flask.path req = "/dashboard" ->
  exists resp rs,
    fst (App.serve (req :: others ++ [req]) w) = inr resp :: rs ++ [inr resp] /\
    (forall records,
       fst (App.handle req
              {| Flask.templates := Flask.templates w; Flask.log := records |})
       = inr resp).
Proof.
  intros Htpl Hm Hp.
  exists (Flask.make_response
            (Jinja.render true
               {[ "widget_code" :=
                    default App.default_widget (App.widget_param req) ]} tpl)),
         (map (fun r => fst (App.handle r w)) others).
  split.
  - rewrite (serve_map _ w tpl Htpl). cbn [fst map]. rewrite map_app. cbn [map].
    now rewrite (handle_rendered w req Hm Hp _ Htpl).
  - intros records.
    now rewrite (handle_rendered
                   {| Flask.templates := Flask.templates w; Flask.log := records |}
                   req Hm Hp tpl Htpl).
Qed.

Lemma dashboard_deterministic_witness :
  let req := Samples.get_dashboard [("widget", "<em>w</em>")] in
  let other := Samples.get_dashboard [("widget", "other")] in
  exists resp rs,
    fst (App.serve (req :: [other; other] ++ [req]) Samples.site)
      = inr resp :: rs ++ [inr resp] /\
    (forall records,
       fst (App.handle req
              {| Flask.templates := Flask.templates Samples.site;
                 Flask.log := records |})
       = inr resp).
Proof.
  apply (dashboard_deterministic Samples.site
           (Samples.get_dashboard [("widget", "<em>w</em>")])
           [Samples.get_dashboard [("widget", "other")];
            Samples.get_dashboard [("widget", "other")]]
           (App.dashboard_html "<html><body>" "</body></html>")); reflexivity.
Defined.

(** C9.  When the query string carries [widget] more than once, the view
    uses the value of the first occurrence and ignores what follows it:
    the response is the rendering of the template with [widget_code]
    bound to that value (with the document of the spec, the value between
    the two halves of the text), whatever comes after the first
    occurrence.  With a template that prints [widget_code] only it is the
    response to the request that carries this one [widget] alone. *)
Theorem dashboard_first_widget_wins (w : Flask.world) (req : Flask.request)
    (tpl : Jinja.template) (pre rest : list (string * string)) (v : string) :
  Flask.templates w !! "dashboard.html" = Some tpl ->
  App.prints_widget_code_only tpl = true ->
  Flask.method req = Flask.GET ->
  Flask.path req = "/dashboard" ->
  Flask.query req = pre ++ ("widget", v) :: rest ->
  Flask.query_values "widget" pre = [] ->
  exists resp,
    fst (App.handle req w) = inr resp /\
    Flask.status resp = 200 /\
    Flask.body resp = Jinja.render true {[ "widget_code" := v ]} tpl /\
    (forall before after, tpl = App.dashboard_html before after ->
       Flask.body resp = before +:+ v +:+ after) /\
    fst (App.handle
           {| Flask.method := Flask.GET; Flask.path := "/dashboard";
              Flask.query := [("widget", v)]; Flask.headers := Flask.headers req |} w)
    = inr resp.
Proof.
  intros Htpl _ Hm Hp Hq Hpre.
  pose proof (widget_param_first req pre v rest Hq Hpre) as Hfirst.
  eexists. rewrite (handle_rendered w req Hm Hp _ Htpl), Hfirst.
  split; [reflexivity|]. split; [reflexivity|]. split; [reflexivity|]. split.
  - intros before after ->. cbn [Flask.make_response Flask.body].
    apply render_dashboard_html.
  - set (req' := Flask.mkRequest _ _ _ _).
    now rewrite (handle_rendered w req' eq_refl eq_refl _ Htpl).
Qed.

Lemma dashboard_first_widget_wins_witness :
  let req :=
    Samples.get_dashboard
      [("page", "2"); ("widget", "first"); ("widget", "second"); ("widget", "")] in
  let tpl := App.dashboard_html "<html><body>" "</body></html>" in
  exists resp,
    fst (App.handle req Samples.site) = inr resp /\
    Flask.status resp = 200 /\
    Flask.body resp = Jinja.render true {[ "widget_code" := "first" ]} tpl /\
    (forall before after, tpl = App.dashboard_html before after ->
       Flask.body resp = before +:+ "first" +:+ after) /\
    fst (App.handle
           {| Flask.method := Flask.GET; Flask.path := "/dashboard";
              Flask.query := [("widget", "first")];
              Flask.headers := Flask.headers req |} Samples.site)
    = inr resp.
Proof.
  apply (dashboard_first_widget_wins Samples.site
           (Samples.get_dashboard
              [("page", "2"); ("widget", "first"); ("widget", "second"); ("widget", "")])
           (App.dashboard_html "<html><body>" "</body></html>")
           [("page", "2")] [("widget", "second"); ("widget", "")] "first");
    reflexivity.
Defined.

(** The second value of a repeated [widget] does not show. *)
Example repeated_widget_body :
  fst (App.handle
         (Samples.get_dashboard [("widget", "first"); ("widget", "second")])
         Samples.site)
  = inr (Flask.make_response "<html><body>first</body></html>").
Proof. vm_compute. reflexivity. Qed.


(** * Further properties of the application *)

(** ** What a request can come to *)

(** X2.  The route is registered without [methods]: a request to
    [/dashboard] with a method other than [GET], [HEAD] and [OPTIONS] is
    refused with [MethodNotAllowed] before the view runs.  [widget] is not
    read, the template folder is not looked at (a missing template goes
    unnoticed) and nothing is logged. *)
Theorem dashboard_other_methods_refused (req : Flask.request) (w : Flask.world) :
  Flask.path req = "/dashboard" ->
  Flask.method req <> Flask.GET ->
  Flask.method req <> Flask.HEAD ->
  Flask.method req <> Flask.OPTIONS ->
  App.handle req w = (inl Flask.MethodNotAllowed, w).
Proof.
  intros Hp Hget Hhead Hoptions. rewrite handle_cases, Hp.
  cbn [String.eqb Ascii.eqb Bool.eqb].
  destruct (Flask.method req); try reflexivity; congruence.
Qed.

Lemma dashboard_other_methods_refused_witness :
  let req :=
    {| Flask.method := Flask.POST; Flask.path := "/dashboard";
       Flask.query := [("widget", "<script>alert(1)</script>")];
       Flask.headers := [] |} in
  let w := {| Flask.templates := ∅; Flask.log := [] |} in
  App.handle req w = (inl Flask.MethodNotAllowed, w).
Proof.
  apply (dashboard_other_methods_refused
           {| Flask.method := Flask.POST; Flask.path := "/dashboard";
              Flask.query := [("widget", "<script>alert(1)</script>")];
              Flask.headers := [] |}
           {| Flask.templates := ∅; Flask.log := [] |});
    [reflexivity | discriminate | discriminate | discriminate].
Defined.

(** X4.  The view raises [TemplateNotFound] exactly when a [GET] or [HEAD]
    on [/dashboard] finds no [dashboard.html] in the template folder:
    the error depends on the folder alone, never on [widget]. *)
Theorem template_not_found_iff (req : Flask.request) (w : Flask.world) :
  fst (App.handle req w) = inl (Flask.TemplateNotFound "dashboard.html") <->
  Flask.path req = "/dashboard" /\
  (Flask.method req = Flask.GET \/ Flask.method req = Flask.HEAD) /\
  Flask.templates w !! "dashboard.html" = None.
Proof.
  rewrite handle_cases.
  destruct (String.eqb_spec "/dashboard" (Flask.path req)) as [Heq|Hne].
  - destruct (Flask.method req);
      try destruct (Flask.templates w !! "dashboard.html");
      cbn [fst];
      (split;
       [ intros H; first [discriminate H | repeat split; auto]
       | intros (_ & Hm & Ht); first [reflexivity | discriminate Ht
                                     | intuition discriminate] ]).
  - split; [discriminate | intros [Hp _]; now elim Hne].
Qed.

(** ** What the answer depends on *)

(** X5.  Of the state, a request reads the entry [dashboard.html] of the
    template folder and nothing else: in two states that agree on this
    entry (whatever their other templates and their logs) every request
    has the same result.  No value of [widget] selects another template. *)
Theorem handle_reads_dashboard_html_only (req : Flask.request)
    (w1 w2 : Flask.world) :
  Flask.templates w1 !! "dashboard.html" = Flask.templates w2 !! "dashboard.html" ->
  fst (App.handle req w1) = fst (App.handle req w2).
Proof.
  intros Hsame. rewrite !handle_cases.
  destruct (String.eqb "/dashboard" (Flask.path req)); [|reflexivity].
  destruct (Flask.method req); rewrite ?Hsame; try reflexivity;
    now destruct (Flask.templates w2 !! "dashboard.html").
Qed.

Lemma handle_reads_dashboard_html_only_witness :
  let req := Samples.get_dashboard [("widget", "admin.html")] in
  let w2 :=
    {| Flask.templates :=
         <["admin.html" := [Jinja.Data "secret"]]> (Flask.templates Samples.site);
       Flask.log := ["started"] |} in
  fst (App.handle req Samples.site) = fst (App.handle req w2).
Proof.
  apply (handle_reads_dashboard_html_only
           (Samples.get_dashboard [("widget", "admin.html")])
           Samples.site
           {| Flask.templates :=
                <["admin.html" := [Jinja.Data "secret"]]> (Flask.templates Samples.site);
              Flask.log := ["started"] |}).
  vm_compute. reflexivity.
Defined.

(** X6.  Leaving [widget] out and spelling the default out come to the
    same: with a template that prints [widget_code] only, a
    [GET /dashboard] without [widget] and one whose [widget] is
    [<div>Welcome to your dashboard!</div>] get the same response. *)
Theorem absent_widget_is_explicit_default (w : Flask.world)
    (req1 req2 : Flask.request) (tpl : Jinja.template) :
  Flask.templates w !! "dashboard.html" = Some tpl ->
  App.prints_widget_code_only tpl = true ->
  Flask.method req1 = Flask.GET -> Flask.path req1 = "/dashboard" ->
  Flask.method req2 = Flask.GET -> Flask.path req2 = "/dashboard" ->
  App.widget_param req1 = None ->
  App.widget_param req2 = Some "<div>Welcome to your dashboard!</div>" ->
  exists resp,
    fst (App.handle req1 w) = inr resp /\
    fst (App.handle req2 w) = inr resp.
Proof.
  intros Htpl _ Hm1 Hp1 Hm2 Hp2 H1 H2.
  rewrite (handle_rendered w req1 Hm1 Hp1 _ Htpl),
          (handle_rendered w req2 Hm2 Hp2 _ Htpl), H1, H2.
  eexists. split; reflexivity.
Qed.

Lemma absent_widget_is_explicit_default_witness :
  exists resp,
    fst (App.handle (Samples.get_dashboard [("theme", "dark")]) Samples.site)
      = inr resp /\
    fst (App.handle
           (Samples.get_dashboard [("widget", "<div>Welcome to your dashboard!</div>")])
           Samples.site) = inr resp.
Proof.
  apply (absent_widget_is_explicit_default Samples.site
           (Samples.get_dashboard [("theme", "dark")])
           (Samples.get_dashboard [("widget", "<div>Welcome to your dashboard!</div>")])
           (App.dashboard_html "<html><body>" "</body></html>"));
    reflexivity.
Defined.

(** Cancellation of a common end. *)
Lemma append_inj_r (s1 s2 t : string) : s1 +:+ t = s2 +:+ t -> s1 = s2.
Proof.
  revert s2. induction s1 as [|c s1 IH]; intros [|c2 s2] Heq.
  - reflexivity.
  - apply (f_equal String.length) in Heq.
    rewrite !length_append in Heq. simpl in Heq. lia.
  - apply (f_equal String.length) in Heq.
    rewrite !length_append in Heq. simpl in Heq. lia.
  - rewrite !append_cons in Heq. injection Heq as -> Heq.
    f_equal. now apply IH.
Qed.

(** X7.  With the document of the spec in the template folder the value
    read by the view can be told from the answer: two [GET /dashboard]
    requests have the same result exactly when they carry the same value
    after defaulting.  The answer depends on that value, and on nothing
    less. *)
Theorem dashboard_result_determines_widget (w : Flask.world)
    (req1 req2 : Flask.request) (before after : string) :
  Flask.templates w !! "dashboard.html" = Some (App.dashboard_html before after) ->
  Flask.method req1 = Flask.GET -> Flask.path req1 = "/dashboard" ->
  Flask.method req2 = Flask.GET -> Flask.path req2 = "/dashboard" ->
  fst (App.handle req1 w) = fst (App.handle req2 w) <->
  MultiDict.get (Flask.args req1) "widget" App.default_widget =
  MultiDict.get (Flask.args req2) "widget" App.default_widget.
Proof.
  intros Htpl Hm1 Hp1 Hm2 Hp2.
  rewrite (handle_rendered w req1 Hm1 Hp1 _ Htpl),
          (handle_rendered w req2 Hm2 Hp2 _ Htpl), !get_widget,
          !render_dashboard_html.
  cbn [fst]. split.
  - intros Heq. injection Heq as Heq.
    apply (inj (String.app before)) in Heq. now apply append_inj_r in Heq.
  - now intros ->.
Qed.

Lemma dashboard_result_determines_widget_witness :
  let req1 := Samples.get_dashboard [("widget", "a"); ("widget", "b")] in
  let req2 := Samples.get_dashboard [("x", "y"); ("widget", "a")] in
  fst (App.handle req1 Samples.site) = fst (App.handle req2 Samples.site) <->
  MultiDict.get (Flask.args req1) "widget" App.default_widget =
  MultiDict.get (Flask.args req2) "widget" App.default_widget.
Proof.
  apply (dashboard_result_determines_widget Samples.site
           (Samples.get_dashboard [("widget", "a"); ("widget", "b")])
           (Samples.get_dashboard [("x", "y"); ("widget", "a")])
           "<html><body>" "</body></html>"); reflexivity.
Defined.
